(** * audio-analyser: a pass-through stream node that analyses PCM data

    Shallow embedding of [index.js].  The analyser keeps a bounded time
    buffer [_data], a smoothed spectrum [_fdata] held in a [Float32Array],
    and two counters; [_capture] updates them for every chunk, the six
    accessors read them.

    Numbers are JavaScript numbers.  Their arithmetic is kept abstract
    (class [JSNumber]): every statement about [_capture] and the accessors
    holds for any interpretation of [+], [-], [*], [/], [%], [>],
    [Math.floor] and of the rounding done by a [Float32Array] store.  Sample
    counts ([fftSize], [bufferSize], [frequencyBinCount], array lengths) are
    natural numbers.  The libraries the module requires ([pcm-util],
    [ndarray-fft], the [stream] base class) are collaborators (class
    [Collaborators]) and enter the model through their calls only. *)

From Stdlib Require Import QArith Qcanon Qround.
From stdpp Require Import base list strings gmap.

Set Default Proof Using "Type".

(** ** JavaScript numbers *)

Class JSNumber (num : Type) := {
  nadd : num → num → num;      (* a + b *)
  nsub : num → num → num;      (* a - b *)
  nmul : num → num → num;      (* a * b *)
  ndiv : num → num → num;      (* a / b *)
  nmod : num → num → num;      (* a % b *)
  nfloor : num → num;          (* Math.floor(a) *)
  ngt : num → num → bool;      (* a > b *)
  ntruthy : num → bool;        (* ToBoolean(a): false for 0 and NaN *)
  of_nat : nat → num;          (* a non-negative integer as a number *)
  fround : num → num;          (* the value a Float32Array element keeps *)
  nundef : num;                (* ToNumber(undefined) *)
}.

(** An array element as a read [a[i]] returns it: a number, or [undefined]
    when the index is not an element of the array. *)
Inductive jsval (num : Type) : Type :=
  | Undefined
  | Number (x : num).
Arguments Undefined {num}.
Arguments Number {num} x.

(** ** Configuration

    What [self.<name>] evaluates to on an instance: the own property that
    [extend(self, options)] copied from the options, or else the prototype's
    value.  [format] stands for the PCM format fields other than
    [sampleRate], which only [pcm-util] reads. *)
Record Config (num fmt : Type) : Type := {
  fftSize : nat;
  smoothingTimeConstant : num;
  frequencyBinCount : nat;
  throttle : num;
  bufferSize : nat;
  channel : nat;
  minDecibels : num;
  maxDecibels : num;
  sampleRate : num;
  format : fmt;
}.
Arguments fftSize {num fmt} _.
Arguments smoothingTimeConstant {num fmt} _.
Arguments frequencyBinCount {num fmt} _.
Arguments throttle {num fmt} _.
Arguments bufferSize {num fmt} _.
Arguments channel {num fmt} _.
Arguments minDecibels {num fmt} _.
Arguments maxDecibels {num fmt} _.
Arguments sampleRate {num fmt} _.
Arguments format {num fmt} _.

(** ** Collaborators *)

Class Collaborators (num fmt chunk : Type) := {
  (* pcm.getChannelData(chunk, channel, format) *)
  getChannelData : chunk → nat → Config num fmt → list num;
  (* pcm.convertSample(sample, format, {float: true}) *)
  convertSample_float : num → Config num fmt → num;
  (* pcm.convertSample(value, {float: true}, {signed: false, bitDepth: 8}) *)
  convertSample_uint8 : jsval num → jsval num;
  (* fft(1, re, im): the contents of the two arrays after the call *)
  fft : list num → list num → list num * list num;
  (* pcm.defaultFormat: its sampleRate, its other fields, and the names of
     those other fields *)
  defaultSampleRate : num;
  defaultFormat : fmt;
  formatKeys : list string;
  (* the names the stream base class reads from the options in
     Transform.call(self, options), or holds on an instance *)
  streamKeys : list string;
}.

(** ** The instance state written by [_capture] *)
Record State (num : Type) : Type := {
  _data : list num;          (* time data buffer, a plain array *)
  _fdata : list num;         (* frequency data, a Float32Array *)
  _timeoutCount : num;
  _fftCount : nat;
}.
Arguments _data {num} _.
Arguments _fdata {num} _.
Arguments _timeoutCount {num} _.
Arguments _fftCount {num} _.

(** What a call does besides updating the state, in program order. *)
Inductive event (num chunk : Type) : Type :=
  | EFft (re im : list num)        (* fft(1, inputRe, inputIm) *)
  | ECallback                      (* cb() *)
  | ESetTimeout                    (* setTimeout(cb) *)
  | EPush (c : chunk)              (* self.push(chunk) *)
  | EEmitData (c : chunk).         (* self.emit('data', chunk) *)
Arguments EFft {num chunk} re im.
Arguments ECallback {num chunk}.
Arguments ESetTimeout {num chunk}.
Arguments EPush {num chunk} c.
Arguments EEmitData {num chunk} c.

(** ** Arrays *)

Section Arrays.
Context {A : Type}.

(** The last [n] elements of [l], all of [l] when it has fewer. *)
Definition last_samples (n : nat) (l : list A) : list A :=
  drop (length l - n) l.

(** [l.slice(-n)] for a count [n].  [-0] is [0], and [l.slice(0)] is the
    whole array. *)
Definition slice_neg (n : nat) (l : list A) : list A :=
  match n with
  | 0 => l
  | S _ => last_samples n l
  end.

(** [l[i]] for an integer [i]: [undefined] outside [0 .. length-1]. *)
Definition array_get (l : list A) (i : Z) : option A :=
  if (i <? 0)%Z then None else l !! Z.to_nat i.
End Arrays.

Section Analyser.
Context {num fmt chunk : Type}.
Context {number : JSNumber num} {collab : Collaborators num fmt chunk}.

Definition elem (o : option num) : jsval num :=
  match o with
  | Some x => Number x
  | None => Undefined
  end.

(** ToNumber of an array read, as arithmetic applies it. *)
Definition to_number (o : option num) : num :=
  match o with
  | Some x => x
  | None => nundef
  end.

(** [new Float32Array(n)] *)
Definition new_Float32Array (n : nat) : list num := replicate n (of_nat 0).

(** The statement of the smoothing loop for one [i]. *)
Definition smooth (k : num) (n : nat) (f re : num) : num :=
  nadd (nmul k f) (ndiv (nmul (nsub (of_nat 1) k) re) (of_nat n)).

(** [for (var i = 0; i < self.fftSize; i++) self._fdata[i] = ...]:
    [steps] iterations are left and the next one is for [i].  A typed
    array ignores a store outside its length. *)
Fixpoint smoothing_loop (k : num) (n : nat) (inputRe : list num)
    (steps i : nat) (fdata : list num) : list num :=
  match steps with
  | 0 => fdata
  | S steps' =>
      let v := smooth k n (to_number (fdata !! i)) (to_number (inputRe !! i)) in
      smoothing_loop k n inputRe steps' (S i) (<[i := fround v]> fdata)
  end.

(** [pcm.getChannelData(chunk, self.channel, self).map(...)]: the samples
    of the analysed channel, as floats. *)
Definition channelData_of (self : Config num fmt) (c : chunk) : list num :=
  map (λ sample, convertSample_float sample self)
      (getChannelData c (channel self) self).

(** [Analyser.prototype._capture] *)
Definition _capture (self : Config num fmt) (st : State num) (c : chunk)
    : State num * list (event num chunk) :=
  let channelData := channelData_of self c in
  let data := slice_neg (bufferSize self) (_data st ++ channelData) in
  let timeoutCount := nadd (_timeoutCount st) (of_nat (length channelData)) in
  let fftCount := _fftCount st + length channelData in
  let '(fftCount, fdata, ev_fft) :=
    if decide (fftSize self ≤ fftCount) then
      let input := slice_neg (fftSize self) data in
      let inputIm := new_Float32Array (fftSize self) in
      let inputRe := (fft input inputIm).1 in
      (0, smoothing_loop (smoothingTimeConstant self) (fftSize self) inputRe
            (fftSize self) 0 (_fdata st),
       [EFft input inputIm])
    else (fftCount, _fdata st, []) in
  if ntruthy (throttle self)
     && ngt (ndiv timeoutCount (sampleRate self))
            (ndiv (throttle self) (of_nat 1000))
  then
    ({| _data := data; _fdata := fdata;
        _timeoutCount :=
          nmod timeoutCount (nfloor (ndiv (sampleRate self) (throttle self)));
        _fftCount := fftCount |},
     ev_fft ++ [ESetTimeout])
  else
    ({| _data := data; _fdata := fdata;
        _timeoutCount := timeoutCount; _fftCount := fftCount |},
     ev_fft ++ [ECallback]).

(** [ndarray-fft] throws on two arrays of different shapes, and [_capture]
    above is the call that runs to its end: the call that runs no
    transform, or whose window has the [fftSize] elements of the imaginary
    array. *)
Definition transform_returns (self : Config num fmt) (st : State num) (c : chunk)
    : Prop :=
  fftSize self ≤ _fftCount st + length (channelData_of self c) →
  length (slice_neg (fftSize self)
            (slice_neg (bufferSize self) (_data st ++ channelData_of self c)))
    = fftSize self.

(** Capture calls arrive one after the other. *)
Fixpoint run (self : Config num fmt) (st : State num) (cs : list chunk)
    : State num * list (event num chunk) :=
  match cs with
  | [] => (st, [])
  | c :: cs' =>
      let '(st1, ev1) := _capture self st c in
      let '(st2, ev2) := run self st1 cs' in
      (st2, ev1 ++ ev2)
  end.

(** Every call of a sequence runs to its end. *)
Fixpoint all_return (self : Config num fmt) (st : State num) (cs : list chunk)
    : Prop :=
  match cs with
  | [] => True
  | c :: cs' =>
      transform_returns self st c ∧ all_return self (_capture self st c).1 cs'
  end.

(** All the samples decoded from a sequence of chunks, in arrival order. *)
Definition decoded (self : Config num fmt) (cs : list chunk) : list num :=
  concat (map (channelData_of self) cs).

(** The transforms a trace ran, with their two input arrays. *)
Definition fft_calls (evs : list (event num chunk)) : list (list num * list num) :=
  omap (λ e, match e with EFft re im => Some (re, im) | _ => None end) evs.

(** How a call signalled its completion: [cb()] within the call, or
    [setTimeout(cb)] for a later turn of the event loop. *)
Inductive completion : Type :=
  | Synchronous
  | Deferred.

Definition completions (evs : list (event num chunk)) : list completion :=
  omap (λ e, match e with
             | ECallback => Some Synchronous
             | ESetTimeout => Some Deferred
             | _ => None
             end) evs.

(** The chunks a trace handed on: pushed to the readable side, or emitted
    with a ['data'] event. *)
Definition pushed (evs : list (event num chunk)) : list chunk :=
  omap (λ e, match e with EPush c => Some c | _ => None end) evs.


(** [Analyser.prototype._transform] *)
Definition _transform (self : Config num fmt) (st : State num) (c : chunk)
    : State num * list (event num chunk) :=
  let '(st', evs) := _capture self st c in
  (st', EPush c :: evs).


(** The stream hands the chunks written to it to [_transform], one after
    the other. *)
Fixpoint transform_all (self : Config num fmt) (st : State num) (cs : list chunk)
    : State num * list (event num chunk) :=
  match cs with
  | [] => (st, [])
  | c :: cs' =>
      let '(st1, ev1) := _transform self st c in
      let '(st2, ev2) := transform_all self st1 cs' in
      (st2, ev1 ++ ev2)
  end.

(** ** Accessors

    A destination is [None] when the argument is absent ([!arr] holds),
    else the elements of the array.  A store [arr[i] = v] with
    [i < arr.length] replaces element [i] by [v], as a plain array does. *)

(** [for (var i = 0, l = ...; i < l; i++) arr[i] = conv(self._fdata[i])]:
    [steps] iterations are left and the next one is for [i]. *)
Fixpoint frequency_loop (conv : jsval num → jsval num) (fdata : list num)
    (steps i : nat) (arr : list (jsval num)) : list (jsval num) :=
  match steps with
  | 0 => arr
  | S steps' =>
      frequency_loop conv fdata steps' (S i) (<[i := conv (elem (fdata !! i))]> arr)
  end.

Definition getFloatFrequencyData (self : Config num fmt) (st : State num)
    (arr : option (list (jsval num))) : option (list (jsval num)) :=
  match arr with
  | None => None
  | Some a =>
      let l := frequencyBinCount self `min` length a in
      Some (frequency_loop id (_fdata st) l 0 a)
  end.

Definition getByteFrequencyData (self : Config num fmt) (st : State num)
    (arr : option (list (jsval num))) : option (list (jsval num)) :=
  match arr with
  | None => None
  | Some a =>
      let l := frequencyBinCount self `min` length a in
      Some (frequency_loop convertSample_uint8 (_fdata st) l 0 a)
  end.

(** [for (var c = 0, i = ..., l = i + size; i < l; i++, c++)
       arr[c] = conv(self._data[i])]:
    as [l] is the first [i] plus [size], the body runs [size] times;
    [steps] iterations are left and the next one is for [c] and [i]. *)
Fixpoint time_loop (conv : jsval num → jsval num) (data : list num)
    (steps c : nat) (i : Z) (arr : list (jsval num)) : list (jsval num) :=
  match steps with
  | 0 => arr
  | S steps' =>
      time_loop conv data steps' (S c) (i + 1)
        (<[c := conv (elem (array_get data i))]> arr)
  end.

Definition getFloatTimeDomainData (self : Config num fmt) (st : State num)
    (arr : option (list (jsval num))) : option (list (jsval num)) :=
  match arr with
  | None => None
  | Some a =>
      let size := length a `min` fftSize self in
      let i := (Z.of_nat (length (_data st)) - Z.of_nat (fftSize self))%Z in
      Some (time_loop id (_data st) size 0 i a)
  end.

Definition getByteTimeDomainData (self : Config num fmt) (st : State num)
    (arr : option (list (jsval num))) : option (list (jsval num)) :=
  match arr with
  | None => None
  | Some a =>
      let size := length a `min` fftSize self in
      let i := (Z.of_nat (length (_data st)) - Z.of_nat (fftSize self))%Z in
      Some (time_loop convertSample_uint8 (_data st) size 0 i a)
  end.

(** The same four accessors for a destination of any kind.  [store] is the
    conversion the destination applies to a value stored in an element:
    none for an [Array], [ToNumber] and rounding for a [Float32Array]
    (which keeps NaN for [undefined]), [ToUint8] for a [Uint8Array].  With
    the identity they are the accessors above. *)
Definition getFloatFrequencyData_into (store : jsval num → jsval num)
    (self : Config num fmt) (st : State num)
    (arr : option (list (jsval num))) : option (list (jsval num)) :=
  match arr with
  | None => None
  | Some a =>
      let l := frequencyBinCount self `min` length a in
      Some (frequency_loop store (_fdata st) l 0 a)
  end.

Definition getByteFrequencyData_into (store : jsval num → jsval num)
    (self : Config num fmt) (st : State num)
    (arr : option (list (jsval num))) : option (list (jsval num)) :=
  match arr with
  | None => None
  | Some a =>
      let l := frequencyBinCount self `min` length a in
      Some (frequency_loop (store ∘ convertSample_uint8) (_fdata st) l 0 a)
  end.

Definition getFloatTimeDomainData_into (store : jsval num → jsval num)
    (self : Config num fmt) (st : State num)
    (arr : option (list (jsval num))) : option (list (jsval num)) :=
  match arr with
  | None => None
  | Some a =>
      let size := length a `min` fftSize self in
      let i := (Z.of_nat (length (_data st)) - Z.of_nat (fftSize self))%Z in
      Some (time_loop store (_data st) size 0 i a)
  end.

Definition getByteTimeDomainData_into (store : jsval num → jsval num)
    (self : Config num fmt) (st : State num)
    (arr : option (list (jsval num))) : option (list (jsval num)) :=
  match arr with
  | None => None
  | Some a =>
      let size := length a `min` fftSize self in
      let i := (Z.of_nat (length (_data st)) - Z.of_nat (fftSize self))%Z in
      Some (time_loop (store ∘ convertSample_uint8) (_data st) size 0 i a)
  end.

(** [size || d] for an optional count: an omitted size and the size 0 are
    both falsy. *)
Definition or_default (size : option nat) (d : nat) : nat :=
  match size with
  | Some (S n) => S n
  | _ => d
  end.

(** [for (var i = 0; i < size; i++) result.push(this._fdata[i])] *)
Fixpoint push_loop (fdata : list num) (steps i : nat) (result : list (jsval num))
    : list (jsval num) :=
  match steps with
  | 0 => result
  | S steps' => push_loop fdata steps' (S i) (result ++ [elem (fdata !! i)])
  end.

Definition getFrequencyData (self : Config num fmt) (st : State num)
    (size : option nat) : list (jsval num) :=
  let size := or_default size (fftSize self) in
  let size := size `min` length (_fdata st) in
  push_loop (_fdata st) size 0 [].

Definition getTimeData (self : Config num fmt) (st : State num)
    (size : option nat) : list num :=
  let size := or_default size (fftSize self) in
  let size := size `min` length (_data st) in
  slice_neg size (_data st).

(** ** Construction *)


(** The options object: the configuration keys the module reads, each
    present or not; the PCM format keys other than [sampleRate] as the
    change they make to [pcm.defaultFormat]; and in [o_other] every key that
    is not a configuration key, with its value. *)
Record Options : Type := {
  o_fftSize : option nat;
  o_smoothingTimeConstant : option num;
  o_frequencyBinCount : option nat;
  o_throttle : option num;
  o_bufferSize : option nat;
  o_channel : option nat;
  o_minDecibels : option num;
  o_maxDecibels : option num;
  o_sampleRate : option num;
  o_format : fmt → fmt;
  o_other : gmap string (jsval num);
}.

(** [Analyser()] and [Analyser({})] *)
Definition no_options : Options :=
  {| o_fftSize := None; o_smoothingTimeConstant := None;
     o_frequencyBinCount := None; o_throttle := None; o_bufferSize := None;
     o_channel := None; o_minDecibels := None; o_maxDecibels := None;
     o_sampleRate := None; o_format := id; o_other := ∅ |}.


(** [Analyser.prototype], extended with [pcm.defaultFormat]. *)
Definition prototype : Config num fmt :=
  {| fftSize := 1024;
     smoothingTimeConstant := ndiv (of_nat 2) (of_nat 10);
     frequencyBinCount := 1024 / 2;
     throttle := of_nat 50;
     bufferSize := 44100;
     channel := 0;
     minDecibels := nsub (of_nat 0) (of_nat 90);
     maxDecibels := nsub (of_nat 0) (of_nat 30);
     sampleRate := defaultSampleRate;
     format := defaultFormat |}.

(** [extend(self, options)]: each key of the options becomes an own
    property, which a read finds before the prototype's. *)
Definition extend (options : Options) : Config num fmt :=
  {| fftSize := default (fftSize prototype) (o_fftSize options);
     smoothingTimeConstant :=
       default (smoothingTimeConstant prototype) (o_smoothingTimeConstant options);
     frequencyBinCount :=
       default (frequencyBinCount prototype) (o_frequencyBinCount options);
     throttle := default (throttle prototype) (o_throttle options);
     bufferSize := default (bufferSize prototype) (o_bufferSize options);
     channel := default (channel prototype) (o_channel options);
     minDecibels := default (minDecibels prototype) (o_minDecibels options);
     maxDecibels := default (maxDecibels prototype) (o_maxDecibels options);
     sampleRate := default (sampleRate prototype) (o_sampleRate options);
     format := o_format options (format prototype) |}.

(** The four fields the constructor assigns after [extend]. *)
Definition internal_fields : list string :=
  ["_data"; "_fdata"; "_timeoutCount"; "_fftCount"]%string.

(** An instance: its configuration, its further own properties, and the
    state. *)
Record Instance : Type := {
  config : Config num fmt;
  own : gmap string (jsval num);
  state : State num;
}.

(** [function Analyser (options)] *)
Definition Analyser (options : Options) : Instance :=
  let self := extend options in
  {| config := self;
     own := foldr delete (o_other options) internal_fields;
     state := {| _data := [];
                 _fdata := new_Float32Array (fftSize self);
                 _timeoutCount := of_nat 0;
                 _fftCount := 0 |} |}.



(** ** The accessors as the specification words them *)

(** [size ?? d] *)
Definition nullish_default (size : option nat) (d : nat) : nat :=
  match size with
  | Some n => n
  | None => d
  end.

(** "returns a newly allocated sequence of [min(size ?? fftSize,
    spectrum.length)] spectrum values starting at index 0" *)
Definition spec_getFrequencyData (self : Config num fmt) (st : State num)
    (size : option nat) : list (jsval num) :=
  Number <$> take (nullish_default size (fftSize self) `min` length (_fdata st))
                  (_fdata st).

(** "copies the most recent [min(dest.length, fftSize)] samples from the
    Time Buffer into [dest], aligned so the buffer's newest sample lands at
    the highest filled index" *)
Definition spec_getFloatTimeDomainData (self : Config num fmt) (st : State num)
    (a : list (jsval num)) : list (jsval num) :=
  let recent := last_samples (length a `min` fftSize self) (_data st) in
  (Number <$> recent) ++ drop (length recent) a.

End Analyser.

(** ** An exact interpretation of the numbers

    Rationals with the two infinities and NaN, computed without rounding
    (so a [Float32Array] keeps what is stored) and with a single zero.  It
    serves to run the model on concrete inputs. *)
Module Exact.
Local Open Scope Qc_scope.

Inductive xnum : Type :=
  | Fin (q : Qc)
  | PInf
  | NInf
  | NaN.

Definition is_zero (q : Qc) : bool := Qeq_bool q 0.
Definition is_neg (q : Qc) : bool := negb (Qle_bool 0 q).

Definition xopp (a : xnum) : xnum :=
  match a with
  | Fin q => Fin (- q)
  | PInf => NInf
  | NInf => PInf
  | NaN => NaN
  end.

Definition xadd (a b : xnum) : xnum :=
  match a, b with
  | NaN, _ | _, NaN => NaN
  | Fin p, Fin q => Fin (p + q)
  | PInf, NInf | NInf, PInf => NaN
  | PInf, _ | _, PInf => PInf
  | NInf, _ | _, NInf => NInf
  end.

Definition xsub (a b : xnum) : xnum := xadd a (xopp b).

(** An infinity times, or divided by, a finite [q]. *)
Definition scale_inf (pos : bool) (q : Qc) : xnum :=
  if is_zero q then NaN
  else if xorb pos (is_neg q) then PInf else NInf.

Definition xmul (a b : xnum) : xnum :=
  match a, b with
  | NaN, _ | _, NaN => NaN
  | Fin p, Fin q => Fin (p * q)
  | PInf, Fin q | Fin q, PInf => scale_inf true q
  | NInf, Fin q | Fin q, NInf => scale_inf false q
  | PInf, PInf | NInf, NInf => PInf
  | PInf, NInf | NInf, PInf => NInf
  end.

Definition xdiv (a b : xnum) : xnum :=
  match a, b with
  | NaN, _ | _, NaN => NaN
  | Fin p, Fin q =>
      if is_zero q then
        if is_zero p then NaN else if is_neg p then NInf else PInf
      else Fin (p / q)
  | Fin _, (PInf | NInf) => Fin 0
  | PInf, Fin q => if is_neg q then NInf else PInf
  | NInf, Fin q => if is_neg q then PInf else NInf
  | (PInf | NInf), (PInf | NInf) => NaN
  end.

(** The integer part, rounding toward zero. *)
Definition trunc (q : Qc) : Z :=
  if is_neg q then Qceiling q else Qfloor q.

Definition of_Z (z : Z) : Qc := Q2Qc (inject_Z z).

Definition xmod (a b : xnum) : xnum :=
  match a, b with
  | NaN, _ | _, NaN => NaN
  | (PInf | NInf), _ => NaN
  | Fin p, (PInf | NInf) => Fin p
  | Fin p, Fin q =>
      if is_zero q then NaN else Fin (p - q * of_Z (trunc (p / q)))
  end.

Definition xfloor (a : xnum) : xnum :=
  match a with
  | Fin q => Fin (of_Z (Qfloor q))
  | _ => a
  end.

Definition xgt (a b : xnum) : bool :=
  match a, b with
  | NaN, _ | _, NaN => false
  | Fin p, Fin q => negb (Qle_bool p q)
  | PInf, PInf => false
  | PInf, _ => true
  | NInf, _ => false
  | Fin _, NInf => true
  | Fin _, PInf => false
  end.

Definition xtruthy (a : xnum) : bool :=
  match a with
  | Fin q => negb (is_zero q)
  | PInf | NInf => true
  | NaN => false
  end.

#[export] Instance xnum_number : JSNumber xnum :=
  {| nadd := xadd; nsub := xsub; nmul := xmul; ndiv := xdiv; nmod := xmod;
     nfloor := xfloor; ngt := xgt; ntruthy := xtruthy;
     of_nat n := Fin (of_Z (Z.of_nat n));
     fround x := x;
     nundef := NaN |}.

(** A number given as a fraction, and an integer. *)
Definition frac (a : Z) (b : positive) : xnum := Fin (Q2Qc (a # b)).
Definition int (a : Z) : xnum := frac a 1.

(** Complex numbers, for the transform. *)
Definition cadd (a b : xnum * xnum) : xnum * xnum :=
  (xadd a.1 b.1, xadd a.2 b.2).
Definition cmul (a b : xnum * xnum) : xnum * xnum :=
  (xsub (xmul a.1 b.1) (xmul a.2 b.2), xadd (xmul a.1 b.2) (xmul a.2 b.1)).
Fixpoint cpow (w : xnum * xnum) (n : nat) : xnum * xnum :=
  match n with
  | 0 => (frac 1 1, frac 0 1)
  | S n' => cmul w (cpow w n')
  end.

(** The sum [x_0 w^(k*0) + x_1 w^(k*1) + ...] over the input from index
    [n] on. *)
Fixpoint dft_bin (w : xnum * xnum) (k n : nat) (xs : list (xnum * xnum))
    : xnum * xnum :=
  match xs with
  | [] => (frac 0 1, frac 0 1)
  | x :: xs' => cadd (cmul x (cpow w (k * n))) (dft_bin w k (S n) xs')
  end.

(** The forward discrete Fourier transform of four points, whose root of
    unity [-i] is exact: the content of the two arrays after the call.  The
    imaginary array gives the length; a missing real element reads as
    [undefined].  (On another number of points the sums are taken with the
    same root.) *)
Definition dft4 (re im : list xnum) : list xnum * list xnum :=
  let xs := imap (λ n y, (default NaN (re !! n), y)) im in
  let out := map (λ k, dft_bin (frac 0 1, frac (-1) 1) k 0 xs) (seq 0 (length xs)) in
  (map fst out, map snd out).

(** Mono float data: a chunk is its samples, all of channel 0, already
    floats.  The byte conversion is [floor((x + 1) * 128)] kept within
    [0 .. 255], and NaN for [undefined]. *)
Definition to_uint8 (v : jsval xnum) : jsval xnum :=
  match v with
  | Undefined => Number NaN
  | Number x =>
      let y := xfloor (xmul (xadd x (frac 1 1)) (frac 128 1)) in
      Number (if xgt (frac 0 1) y then frac 0 1
              else if xgt y (frac 255 1) then frac 255 1 else y)
  end.

Definition mono_float (transform : list xnum → list xnum → list xnum * list xnum)
    : Collaborators xnum unit (list xnum) :=
  {| getChannelData c ch _ := match ch with 0 => c | S _ => [] end;
     convertSample_float sample _ := sample;
     convertSample_uint8 := to_uint8;
     fft := transform;
     defaultSampleRate := int 44100;
     defaultFormat := ();
     formatKeys := ["channels"; "bitDepth"; "signed"; "float"; "endianness"]%string;
     streamKeys := ["highWaterMark"; "objectMode"; "decodeStrings"; "encoding";
                    "transform"; "flush"; "write"; "read"; "destroyed";
                    "readable"; "writable"]%string |}.

(** Options that set [fftSize], [smoothingTimeConstant] and [channel];
    options that set [fftSize] only; options that set [bufferSize] only. *)
Definition window_options (n : nat) (k : xnum) : Options (num := xnum) (fmt := unit) :=
  {| o_fftSize := Some n; o_smoothingTimeConstant := Some k;
     o_frequencyBinCount := None; o_throttle := None; o_bufferSize := None;
     o_channel := Some 0%nat; o_minDecibels := None; o_maxDecibels := None;
     o_sampleRate := None; o_format := id; o_other := ∅ |}.

Definition fftSize_options (n : nat) : Options (num := xnum) (fmt := unit) :=
  {| o_fftSize := Some n; o_smoothingTimeConstant := None;
     o_frequencyBinCount := None; o_throttle := None; o_bufferSize := None;
     o_channel := None; o_minDecibels := None; o_maxDecibels := None;
     o_sampleRate := None; o_format := id; o_other := ∅ |}.

Definition bufferSize_options (n : nat) : Options (num := xnum) (fmt := unit) :=
  {| o_fftSize := None; o_smoothingTimeConstant := None;
     o_frequencyBinCount := None; o_throttle := None; o_bufferSize := Some n;
     o_channel := None; o_minDecibels := None; o_maxDecibels := None;
     o_sampleRate := None; o_format := id; o_other := ∅ |}.

(** Options that set [fftSize] and [bufferSize]. *)
Definition window_buffer_options (n b : nat) : Options (num := xnum) (fmt := unit) :=
  {| o_fftSize := Some n; o_smoothingTimeConstant := None;
     o_frequencyBinCount := None; o_throttle := None; o_bufferSize := Some b;
     o_channel := None; o_minDecibels := None; o_maxDecibels := None;
     o_sampleRate := None; o_format := id; o_other := ∅ |}.

(** The instance [Analyser(options)] builds, with the four-point transform
    for [ndarray-fft]. *)
Definition construct (o : Options) : Instance (num := xnum) (fmt := unit) :=
  Analyser (collab := mono_float dft4) o.

End Exact.

(** * Properties *)

(** ** Arrays *)

Section ArrayFacts.
Context {A : Type}.
Implicit Types (l h x : list A) (n : nat).

Lemma last_samples_length n l : length (last_samples n l) = n `min` length l.
Proof. unfold last_samples. rewrite length_drop. lia. Qed.

Lemma last_samples_all n l : length l ≤ n → last_samples n l = l.
Proof.
  intros Hle. unfold last_samples.
  replace (length l - n) with 0 by lia. apply drop_0.
Qed.

Lemma last_samples_suffix n l : last_samples n l `suffix_of` l.
Proof. apply suffix_drop. Qed.

(** Appending to an already truncated buffer and truncating again keeps
    the same samples as truncating the whole history once. *)
Lemma last_samples_app n h x :
  last_samples n (last_samples n h ++ x) = last_samples n (h ++ x).
Proof.
  unfold last_samples. rewrite !length_app, length_drop.
  rewrite !skipn_app, length_drop, drop_drop.
  f_equal; f_equal; lia.
Qed.

Lemma last_samples_idemp n l : last_samples n (last_samples n l) = last_samples n l.
Proof.
  apply last_samples_all. rewrite last_samples_length. lia.
Qed.

Lemma slice_neg_pos n l : 0 < n → slice_neg n l = last_samples n l.
Proof. destruct n; [lia | done]. Qed.

Lemma slice_neg_idemp n l : slice_neg n (slice_neg n l) = slice_neg n l.
Proof. destruct n; [done | apply last_samples_idemp]. Qed.

Lemma slice_neg_length_le n l : length (slice_neg n l) ≤ length l.
Proof.
  destruct n; simpl; [lia |]. rewrite last_samples_length. lia.
Qed.

Lemma array_get_nat l (i : nat) : array_get l (Z.of_nat i) = l !! i.
Proof.
  unfold array_get. destruct (Z.ltb_spec (Z.of_nat i) 0); [lia |].
  by rewrite Nat2Z.id.
Qed.

Lemma array_get_neg l (i : Z) : (i < 0)%Z → array_get l i = None.
Proof.
  intros Hi. unfold array_get. by destruct (Z.ltb_spec i 0); [| lia].
Qed.
End ArrayFacts.

Section AnalyserFacts.
Context {num fmt chunk : Type}.
Context {number : JSNumber num} {collab : Collaborators num fmt chunk}.
Implicit Types (self : Config num fmt) (st : State num) (c : chunk).
Implicit Types (fdata data : list num) (arr : list (jsval num)).

(** ** The loops *)

(** A loop that stores into the indices [i .. i + steps - 1] is read back
    index by index. *)
Ltac loop_lookup IH :=
  rewrite IH;
  repeat case_decide; try lia; try done;
  repeat match goal with
  | |- context [<[?i := ?v]> ?l !! ?i] =>
      let E := fresh in
      destruct (l !! i) eqn:E;
      [ rewrite (list_lookup_insert_eq l) by (by eapply lookup_lt_Some)
      | rewrite (list_insert_ge l) by (by apply lookup_ge_None) ]
  | |- context [<[?i := _]> _ !! ?j] =>
      rewrite list_lookup_insert_ne by lia
  end;
  try done.

Lemma smoothing_loop_lookup k n inputRe steps i fdata j :
  smoothing_loop k n inputRe steps i fdata !! j =
    if decide (i ≤ j < i + steps)
    then (λ f, fround (smooth k n f (to_number (inputRe !! j)))) <$> fdata !! j
    else fdata !! j.
Proof.
  revert i fdata. induction steps as [| steps IH]; intros i fdata; simpl.
  { case_decide; [lia | done]. }
  destruct (decide (j = i)) as [-> |].
  - loop_lookup IH; simpl; congruence.
  - loop_lookup IH.
Qed.

Lemma smoothing_loop_length k n inputRe steps i fdata :
  length (smoothing_loop k n inputRe steps i fdata) = length fdata.
Proof.
  revert i fdata. induction steps as [| steps IH]; intros i fdata; simpl; [done |].
  by rewrite IH, length_insert.
Qed.

Lemma frequency_loop_lookup conv fdata steps i arr j :
  frequency_loop conv fdata steps i arr !! j =
    if decide (i ≤ j < i + steps)
    then (λ _, conv (elem (fdata !! j))) <$> arr !! j
    else arr !! j.
Proof.
  revert i arr. induction steps as [| steps IH]; intros i arr; simpl.
  { case_decide; [lia | done]. }
  destruct (decide (j = i)) as [-> |].
  - loop_lookup IH; simpl; congruence.
  - loop_lookup IH.
Qed.

Lemma frequency_loop_length conv fdata steps i arr :
  length (frequency_loop conv fdata steps i arr) = length arr.
Proof.
  revert i arr. induction steps as [| steps IH]; intros i arr; simpl; [done |].
  by rewrite IH, length_insert.
Qed.

Lemma time_loop_lookup conv data steps ci (i : Z) arr j :
  time_loop conv data steps ci i arr !! j =
    if decide (ci ≤ j < ci + steps)
    then (λ _, conv (elem (array_get data (i + Z.of_nat (j - ci))))) <$> arr !! j
    else arr !! j.
Proof.
  revert ci i arr. induction steps as [| steps IH]; intros ci i arr; simpl.
  { case_decide; [lia | done]. }
  destruct (decide (j = ci)) as [-> |].
  - loop_lookup IH; simpl; rewrite ?Nat.sub_diag, ?Z.add_0_r; congruence.
  - loop_lookup IH.
    by replace (i + 1 + Z.of_nat (j - S ci))%Z with (i + Z.of_nat (j - ci))%Z by lia.
Qed.

Lemma time_loop_length conv data steps ci (i : Z) arr :
  length (time_loop conv data steps ci i arr) = length arr.
Proof.
  revert ci i arr. induction steps as [| steps IH]; intros ci i arr; simpl; [done |].
  by rewrite IH, length_insert.
Qed.

Lemma push_loop_spec fdata steps i result :
  push_loop fdata steps i result =
    result ++ ((λ j, elem (fdata !! j)) <$> seq i steps).
Proof.
  revert i result. induction steps as [| steps IH]; intros i result; simpl.
  - by rewrite app_nil_r.
  - by rewrite IH, <- app_assoc.
Qed.

Lemma reads_in_range fdata n :
  n ≤ length fdata →
  (λ j, elem (fdata !! j)) <$> seq 0 n = Number <$> take n fdata.
Proof.
  intros Hn. apply list_eq. intros j.
  rewrite !list_lookup_fmap.
  destruct (decide (j < n)) as [Hj | Hj].
  - rewrite lookup_seq_lt by done. simpl.
    rewrite lookup_take_lt by done.
    destruct (lookup_lt_is_Some_2 fdata j) as [x Hx]; [lia |].
    by rewrite Hx.
  - rewrite lookup_seq_ge by lia.
    rewrite lookup_take_ge by lia. done.
Qed.

(** ** One capture call *)

Lemma capture_data self st c :
  _data (_capture self st c).1 =
    slice_neg (bufferSize self) (_data st ++ channelData_of self c).
Proof.
  unfold _capture. case_decide; destruct (_ && _); done.
Qed.

Lemma capture_triggered self st c :
  fftSize self ≤ _fftCount st + length (channelData_of self c) →
  let st' := (_capture self st c).1 in
  let input := slice_neg (fftSize self) (_data st') in
  let inputIm := new_Float32Array (fftSize self) in
  fft_calls (_capture self st c).2 = [(input, inputIm)] ∧
  _fftCount st' = 0 ∧
  _fdata st' =
    smoothing_loop (smoothingTimeConstant self) (fftSize self)
      (fft input inputIm).1 (fftSize self) 0 (_fdata st).
Proof.
  intros Hge. unfold _capture.
  case_decide; [| lia]. destruct (_ && _); done.
Qed.

Lemma capture_not_triggered self st c :
  _fftCount st + length (channelData_of self c) < fftSize self →
  let st' := (_capture self st c).1 in
  fft_calls (_capture self st c).2 = [] ∧
  _fftCount st' = _fftCount st + length (channelData_of self c) ∧
  _fdata st' = _fdata st.
Proof.
  intros Hlt. unfold _capture.
  case_decide; [lia |]. destruct (_ && _); done.
Qed.

(** C1.  In every capture call that runs to its end (the transform, if
    one runs, gets a whole window and returns) the decoded samples are
    first appended to the time buffer; a transform is then run if and only
    if the count of samples since the last transform, the new ones
    included, has reached [fftSize].  When it runs the count is reset to 0
    and every bin [i < fftSize] of the spectrum is updated to
    [k * spectrum[i] + (1 - k) * Re(output[i]) / fftSize], stored in the
    [Float32Array], where [output] is the forward transform of the most
    recent [fftSize] buffered samples with an all-zero imaginary input;
    when it does not run the count keeps the sum and the spectrum is
    unchanged. *)
Theorem capture_transform self st c :
  transform_returns self st c →
  let n := length (channelData_of self c) in
  let st' := (_capture self st c).1 in
  let calls := fft_calls (_capture self st c).2 in
  let k := smoothingTimeConstant self in
  let zeros := replicate (fftSize self) (of_nat 0) in
  let window := last_samples (fftSize self) (_data st') in
  let output := (fft window zeros).1 in
  _data st' = slice_neg (bufferSize self) (_data st ++ channelData_of self c) ∧
  (calls ≠ [] ↔ fftSize self ≤ _fftCount st + n) ∧
  (fftSize self ≤ _fftCount st + n →
     calls = [(slice_neg (fftSize self) (_data st'), zeros)] ∧
     length (slice_neg (fftSize self) (_data st')) = fftSize self ∧
     (0 < fftSize self → slice_neg (fftSize self) (_data st') = window) ∧
     _fftCount st' = 0 ∧
     length (_fdata st') = length (_fdata st) ∧
     ∀ i, i < fftSize self →
       _fdata st' !! i =
         (λ f, fround (nadd (nmul k f)
                  (ndiv (nmul (nsub (of_nat 1) k) (to_number (output !! i)))
                        (of_nat (fftSize self)))))
         <$> _fdata st !! i) ∧
  (_fftCount st + n < fftSize self →
     _fftCount st' = _fftCount st + n ∧ _fdata st' = _fdata st).
Proof.
  intros Hreturns n st' calls k zeros window output.
  split; [apply capture_data |].
  split.
  { destruct (decide (fftSize self ≤ _fftCount st + n)) as [Hge | Hlt].
    - destruct (capture_triggered self st c Hge) as (Hcalls & _).
      subst calls. rewrite Hcalls. done.
    - destruct (capture_not_triggered self st c) as (Hcalls & _); [lia |].
      subst calls. rewrite Hcalls. done. }
  split.
  - intros Hge.
    destruct (capture_triggered self st c Hge) as (Hcalls & Hcount & Hfdata).
    split; [done |].
    split; [subst st'; rewrite capture_data; exact (Hreturns Hge) |].
    split; [intros Hpos; by apply slice_neg_pos |].
    split; [done |].
    fold st' in Hfdata. rewrite Hfdata.
    split; [apply smoothing_loop_length |].
    intros i Hi. rewrite smoothing_loop_lookup.
    case_decide; [| lia].
    subst output window. rewrite slice_neg_pos by lia. done.
  - intros Hlt.
    destruct (capture_not_triggered self st c Hlt) as (_ & Hcount & Hfdata).
    done.
Qed.

(** C6.  At the end of every capture call that runs to its end (the
    transform, if one runs, returns) the completion is deferred
    ([setTimeout(cb)]) if and only if [throttle] is truthy and
    [_timeoutCount / sampleRate > throttle / 1000], [_timeoutCount] being
    the count the call has just increased; on that path the count is
    replaced by itself modulo [Math.floor(sampleRate / throttle)].  On the
    other path the callback is called within the call and the count is left
    as increased. *)
Theorem capture_completion self st c :
  transform_returns self st c →
  let count := nadd (_timeoutCount st) (of_nat (length (channelData_of self c))) in
  let st' := (_capture self st c).1 in
  let evs := (_capture self st c).2 in
  let over :=
    ntruthy (throttle self)
    && ngt (ndiv count (sampleRate self)) (ndiv (throttle self) (of_nat 1000)) in
  (completions evs = [Deferred] ↔ over = true) ∧
  (completions evs = [Synchronous] ↔ over = false) ∧
  (over = true →
     last evs = Some ESetTimeout ∧
     _timeoutCount st' =
       nmod count (nfloor (ndiv (sampleRate self) (throttle self)))) ∧
  (over = false →
     last evs = Some ECallback ∧ _timeoutCount st' = count).
Proof.
  intros _ count st' evs over.
  subst st' evs. unfold _capture. fold count. fold over.
  case_decide; destruct over; simpl;
    rewrite ?last_snoc; repeat split; intros; done.
Qed.

(** ** Sequences of capture calls *)

Lemma run_cons self st c cs :
  run self st (c :: cs) =
    ((run self (_capture self st c).1 cs).1,
     (_capture self st c).2 ++ (run self (_capture self st c).1 cs).2).
Proof.
  cbn [run]. destruct (_capture self st c) as [st1 ev1]. cbn [fst snd].
  by destruct (run self st1 cs) as [st2 ev2].
Qed.

Lemma decoded_cons self c cs :
  decoded self (c :: cs) = channelData_of self c ++ decoded self cs.
Proof. done. Qed.

Lemma fft_calls_app (ev1 ev2 : list (event num chunk)) :
  fft_calls (ev1 ++ ev2) = fft_calls ev1 ++ fft_calls ev2.
Proof. apply omap_app. Qed.

(** With a positive [bufferSize] the buffer holds the last [bufferSize]
    samples of the whole history, whatever the chunking. *)
Lemma run_data self cs st history :
  0 < bufferSize self →
  _data st = last_samples (bufferSize self) history →
  _data (run self st cs).1 =
    last_samples (bufferSize self) (history ++ decoded self cs).
Proof.
  intros Hpos. revert st history.
  induction cs as [| c cs IH]; intros st history Hst.
  - simpl. by rewrite app_nil_r.
  - rewrite run_cons, decoded_cons, app_assoc. simpl.
    apply IH. rewrite capture_data, slice_neg_pos, Hst by done.
    apply last_samples_app.
Qed.




(** C2 on the code: with [bufferSize] 0 the capture truncates with
    [slice(-0)], which keeps the whole array, so the buffer grows with
    every sample. *)
Theorem buffer_unbounded_at_0 self st c :
  bufferSize self = 0 →
  _data (_capture self st c).1 = _data st ++ channelData_of self c ∧
  length (_data (_capture self st c).1) =
    length (_data st) + length (channelData_of self c).
Proof.
  intros Hzero. rewrite capture_data, Hzero. simpl.
  by rewrite length_app.
Qed.

(** With a positive [bufferSize] the claim of C2 holds: after every
    sequence of capture calls on a new analyser the buffer is no longer
    than [bufferSize] and holds the most recent
    [min(total, bufferSize)] samples in arrival order. *)
Lemma time_buffer_bounded self cs (st : State num) :
  0 < bufferSize self →
  _data st = [] →
  let data := _data (run self st cs).1 in
  let total := length (decoded self cs) in
  length data ≤ bufferSize self ∧
  length data = total `min` bufferSize self ∧
  data = last_samples (total `min` bufferSize self) (decoded self cs).
Proof.
  intros Hpos Hnew data total.
  assert (data = last_samples (bufferSize self) (decoded self cs)) as Hdata.
  { subst data. by rewrite (run_data self cs st []). }
  rewrite Hdata, last_samples_length. fold total.
  split; [lia |]. split; [lia |].
  unfold last_samples. f_equal. lia.
Qed.


(** ** The pass-through *)


(** ** Accessors *)

(** C9.  [getFloatFrequencyData] and [getByteFrequencyData] store into the
    indices below [min(frequencyBinCount, dest.length)] and into no other:
    the destination keeps its length and every element from that index on;
    an absent destination is returned as it is. *)
Theorem frequency_data_writes self st :
  getFloatFrequencyData self st None = None ∧
  getByteFrequencyData self st None = None ∧
  ∀ arr, ∃ arr1 arr2,
    getFloatFrequencyData self st (Some arr) = Some arr1 ∧
    getByteFrequencyData self st (Some arr) = Some arr2 ∧
    length arr1 = length arr ∧ length arr2 = length arr ∧
    (∀ j, frequencyBinCount self `min` length arr ≤ j →
       arr1 !! j = arr !! j ∧ arr2 !! j = arr !! j) ∧
    (∀ j, j < frequencyBinCount self `min` length arr →
       arr1 !! j = Some (elem (_fdata st !! j)) ∧
       arr2 !! j = Some (convertSample_uint8 (elem (_fdata st !! j)))).
Proof.
  split; [done |]. split; [done |]. intros arr.
  eexists _, _. split; [done |]. split; [done |].
  rewrite !frequency_loop_length. split; [done |]. split; [done |].
  split; intros j Hj; rewrite !frequency_loop_lookup.
  - case_decide; [lia | done].
  - case_decide; [| lia].
    destruct (lookup_lt_is_Some_2 arr j) as [x Hx]; [lia |].
    by rewrite Hx.
Qed.

(** C3, as the code has it.  Once the buffer holds [fftSize] samples,
    [getFloatTimeDomainData] stores [size = min(dest.length, fftSize)]
    elements, [dest[j]] receiving [_data[_data.length - fftSize + j]]: the
    first [size] samples of the window of the most recent [fftSize]
    samples, as the destination's element type keeps them.  The rest of
    the destination is untouched.  The newest sample is stored, at the
    highest index written, when the destination holds a whole window.
    [getByteTimeDomainData] stores the same samples converted to unsigned
    8 bit. *)
Theorem time_domain_data (store : jsval num → jsval num) self st arr :
  fftSize self ≤ length (_data st) →
  let size := length arr `min` fftSize self in
  let window := last_samples (fftSize self) (_data st) in
  ∃ arr1 arr2,
    getFloatTimeDomainData_into store self st (Some arr) = Some arr1 ∧
    getByteTimeDomainData_into store self st (Some arr) = Some arr2 ∧
    length arr1 = length arr ∧ length arr2 = length arr ∧
    (∀ j, size ≤ j → arr1 !! j = arr !! j ∧ arr2 !! j = arr !! j) ∧
    take size arr1 = store ∘ Number <$> take size window ∧
    take size arr2 =
      store ∘ convertSample_uint8 ∘ Number <$> take size window ∧
    (fftSize self ≤ length arr →
     take (fftSize self) arr1 = store ∘ Number <$> window).
Proof.
  intros Hfull size window.
  set (first := (Z.of_nat (length (_data st)) - Z.of_nat (fftSize self))%Z).
  assert (∀ conv : jsval num → jsval num,
    take size (time_loop conv (_data st) size 0 first arr) =
      conv ∘ Number <$> take size window) as Hwin.
  { intros conv. apply list_eq. intros j. rewrite list_lookup_fmap.
    destruct (decide (j < size)) as [Hj | Hj].
    - rewrite !lookup_take_lt, time_loop_lookup by done.
      case_decide; [| lia].
      destruct (lookup_lt_is_Some_2 arr j) as [x Hx]; [lia |].
      rewrite Hx, Nat.sub_0_r. simpl.
      subst window first. unfold last_samples. rewrite lookup_drop.
      replace (Z.of_nat (length (_data st)) - Z.of_nat (fftSize self)
               + Z.of_nat j)%Z
        with (Z.of_nat (length (_data st) - fftSize self + j)) by lia.
      rewrite array_get_nat.
      destruct (lookup_lt_is_Some_2 (_data st)
                  (length (_data st) - fftSize self + j)) as [y Hy]; [lia |].
      by rewrite Hy.
    - rewrite !lookup_take_ge by lia. done. }
  eexists _, _. split; [done |]. split; [done |].
  rewrite !time_loop_length. split; [done |]. split; [done |].
  split.
  { intros j Hj. rewrite !time_loop_lookup. case_decide; [lia | done]. }
  split; [apply Hwin |]. split; [apply (Hwin (store ∘ convertSample_uint8)) |].
  intros Hdest.
  assert (size = fftSize self) as Hsize by (subst size; lia).
  rewrite <- Hsize at 1. etrans; [exact (Hwin store) |].
  f_equal. apply take_ge. subst window. rewrite last_samples_length. lia.
Qed.

(** C8, as the code has it.  [getFrequencyData(size)] returns a new array
    of the first [min(size || fftSize, _fdata.length)] spectrum values, and
    [getTimeData(size)] a new array of the last
    [min(size || fftSize, _data.length)] buffered samples, a size that is
    omitted or 0 being replaced by [fftSize] (which is taken positive). *)
Theorem sized_data self st size :
  0 < fftSize self →
  let n := or_default size (fftSize self) in
  getFrequencyData self st size =
    Number <$> take (n `min` length (_fdata st)) (_fdata st) ∧
  length (getFrequencyData self st size) = n `min` length (_fdata st) ∧
  getTimeData self st size =
    last_samples (n `min` length (_data st)) (_data st) ∧
  length (getTimeData self st size) = n `min` length (_data st) ∧
  (size = None ∨ size = Some 0 → n = fftSize self) ∧
  (∀ m, size = Some (S m) → n = S m).
Proof.
  intros Hfft n.
  assert (getFrequencyData self st size =
    Number <$> take (n `min` length (_fdata st)) (_fdata st)) as Hf.
  { unfold getFrequencyData. fold n.
    rewrite push_loop_spec. simpl. apply reads_in_range. lia. }
  assert (getTimeData self st size =
    last_samples (n `min` length (_data st)) (_data st)) as Ht.
  { unfold getTimeData. fold n.
    destruct (n `min` length (_data st)) eqn:Hm; [| done]. simpl.
    assert (0 < n) by (subst n; destruct size as [[|]|]; simpl; lia).
    destruct (_data st); [done | simpl in Hm; lia]. }
  rewrite Hf, Ht, length_fmap, length_take, last_samples_length.
  repeat split; try lia.
  - intros [-> | ->]; done.
  - intros m ->. done.
Qed.

(** ** Construction *)


(** C4, as the code has it.  Without a [frequencyBinCount] option the
    analyser's [frequencyBinCount] is the prototype's constant [1024/2],
    that is 512, whatever [fftSize] the options give. *)
Theorem frequencyBinCount_default (o : Options) :
  o_frequencyBinCount o = None →
  frequencyBinCount (config (Analyser o)) = 512 ∧
  fftSize (config (Analyser o)) = default 1024 (o_fftSize o).
Proof. intros Hnone. simpl. rewrite Hnone. done. Qed.


End AnalyserFacts.

(** ** The analyser on concrete inputs *)

Import Exact.

(** Equal lists of exact numbers, by computation. *)
Ltac xnum_eq :=
  vm_compute;
  repeat (f_equal; try (apply Qc_is_canon; reflexivity)).

(** In exact arithmetic [0 * 0 + x] is [x]. *)
Lemma xadd_zero_l (x : xnum) : xadd (xmul (int 0) (int 0)) x = x.
Proof.
  destruct x as [q | | |]; try reflexivity.
  unfold int, frac, xmul, xadd. f_equal.
  change (Q2Qc (0 # 1)) with 0%Qc. ring.
Qed.

(** C1 at work: a new analyser with [fftSize] 4 that captures four samples
    runs the transform and resets its count. *)
Lemma capture_transform_witness :
  let a := construct (window_options 4 (int 0)) in
  let st' := (_capture (collab := mono_float dft4) (config a) (state a)
                [int 1; int 0; int (-1); int 0]).1 in
  _fftCount st' = 0 ∧ length (_fdata st') = 4.
Proof.
  intros a st'.
  destruct (capture_transform (collab := mono_float dft4) (config a) (state a)
              [int 1; int 0; int (-1); int 0]) as (_ & _ & Hrun & _);
    [intros _; reflexivity |].
  destruct Hrun as (_ & _ & _ & Hcount & Hlen & _); [vm_compute; lia |].
  split; [exact Hcount | exact Hlen].
Defined.

(** C6 at work, with the prototype's [throttle] 50 and [sampleRate] 44100:
    a chunk of 2206 samples is more than 50 ms of data, the completion is
    deferred and the count becomes 2206 modulo 882. *)
Lemma capture_completion_witness :
  let a := construct no_options in
  let r := _capture (collab := mono_float dft4) (config a) (state a)
             (replicate 2206 (int 0)) in
  completions r.2 = [Deferred] ∧ _timeoutCount r.1 = int 442.
Proof.
  intros a r.
  destruct (capture_completion (collab := mono_float dft4) (config a) (state a)
              (replicate 2206 (int 0))) as (Hiff & _ & Hover & _);
    [intros _; vm_compute; reflexivity |].
  split.
  - apply Hiff. vm_compute. reflexivity.
  - destruct Hover as [_ Hcount]; [vm_compute; reflexivity |].
    etrans; [exact Hcount |]. xnum_eq.
Defined.

(** C2 on the code, at work: an analyser built with [bufferSize: 0] holds
    the sample it captured. *)
Lemma buffer_unbounded_at_0_witness :
  let a := construct (bufferSize_options 0) in
  bufferSize (config a) = 0 ∧
  _data (_capture (collab := mono_float dft4) (config a) (state a) [int 1]).1
    = [int 1].
Proof.
  intros a. split; [reflexivity |].
  apply (buffer_unbounded_at_0 (collab := mono_float dft4) (config a) (state a)
           [int 1]).
  reflexivity.
Defined.



(** C3 at work: with [fftSize] 4, the buffer [1, 2, 3, 4] and a plain
    destination of four elements the whole window is stored, the newest
    sample last. *)
Lemma time_domain_data_witness :
  let a := construct (window_options 4 (int 0)) in
  let st := (_capture (collab := mono_float dft4) (config a) (state a)
               [int 1; int 2; int 3; int 4]).1 in
  let dest := [Undefined; Undefined; Undefined; Undefined] in
  ∃ arr1,
    getFloatTimeDomainData_into id (config a) st (Some dest) = Some arr1 ∧
    take 4 arr1 = [Number (int 1); Number (int 2); Number (int 3); Number (int 4)].
Proof.
  intros a st dest.
  destruct (time_domain_data (collab := mono_float dft4) id (config a) st dest)
    as (arr1 & arr2 & Hfloat & _ & _ & _ & _ & _ & _ & Hwhole);
    [vm_compute; lia |].
  exists arr1. split; [exact Hfloat |].
  etrans; [apply Hwhole; vm_compute; lia |]. reflexivity.
Defined.

(** C3 against the code.  With [fftSize] 4, the buffer [1, 2, 3, 4] and a
    destination of two elements, [getFloatTimeDomainData] stores [1, 2], the
    two oldest samples of the window; the two most recent samples, with the
    newest at the highest index, would be [3, 4]. *)
Lemma time_domain_data_counterexample :
  let a := construct (window_options 4 (int 0)) in
  let st := (_capture (collab := mono_float dft4) (config a) (state a)
               [int 1; int 2; int 3; int 4]).1 in
  let dest := [Undefined; Undefined] in
  _data st = [int 1; int 2; int 3; int 4] ∧
  getFloatTimeDomainData (config a) st (Some dest)
    = Some [Number (int 1); Number (int 2)] ∧
  spec_getFloatTimeDomainData (config a) st dest
    = [Number (int 3); Number (int 4)] ∧
  getFloatTimeDomainData (config a) st (Some dest)
    ≠ Some (spec_getFloatTimeDomainData (config a) st dest).
Proof.
  intros a st dest.
  assert (_data st = [int 1; int 2; int 3; int 4]) as Hdata.
  { subst st. rewrite capture_data. reflexivity. }
  assert (getFloatTimeDomainData (config a) st (Some dest)
            = Some [Number (int 1); Number (int 2)]) as Hcode.
  { unfold getFloatTimeDomainData. rewrite Hdata. reflexivity. }
  assert (spec_getFloatTimeDomainData (config a) st dest
            = [Number (int 3); Number (int 4)]) as Hspec.
  { unfold spec_getFloatTimeDomainData. rewrite Hdata. reflexivity. }
  split; [done |]. split; [done |]. split; [done |].
  rewrite Hcode, Hspec. intros Heq.
  injection Heq as Heq _. vm_compute in Heq. discriminate Heq.
Qed.

(** C4 at work: the options [{fftSize: 256}] name no [frequencyBinCount],
    and the analyser's is 512. *)
Lemma frequencyBinCount_default_witness :
  o_frequencyBinCount (fftSize_options 256) = None ∧
  frequencyBinCount (config (construct (fftSize_options 256))) = 512 ∧
  fftSize (config (construct (fftSize_options 256))) = 256.
Proof.
  split; [reflexivity |].
  apply (frequencyBinCount_default (collab := mono_float dft4)
           (fftSize_options 256)).
  reflexivity.
Defined.

(** C4 against the code: with the options [{fftSize: 256}] the analyser's
    [frequencyBinCount] is 512, and [fftSize / 2] is 128. *)
Lemma frequencyBinCount_counterexample :
  let self := config (construct (fftSize_options 256)) in
  o_frequencyBinCount (fftSize_options 256) = None ∧
  fftSize self = 256 ∧
  frequencyBinCount self = 512 ∧
  frequencyBinCount self ≠ fftSize self / 2.
Proof.
  intros self. split; [reflexivity |]. split; [reflexivity |].
  split; [reflexivity |]. vm_compute. lia.
Qed.



(** C8 at work: on a new analyser with [fftSize] 4 the size 0 is replaced
    by 4, and the empty buffer gives no time data. *)
Lemma sized_data_witness :
  let a := construct (window_options 4 (int 0)) in
  length (getFrequencyData (config a) (state a) (Some 0)) = 4 ∧
  getTimeData (config a) (state a) None = [].
Proof.
  intros a.
  destruct (sized_data (config a) (state a) (Some 0)) as (_ & Hlen & _);
    [vm_compute; lia |].
  destruct (sized_data (config a) (state a) None) as (_ & _ & Htime & _);
    [vm_compute; lia |].
  split; [exact Hlen | exact Htime].
Defined.

(** C8 against the code: on a new analyser with [fftSize] 4,
    [getFrequencyData(0)] returns four values, where [min(0 ?? fftSize, 4)]
    is 0. *)
Lemma sized_data_counterexample :
  let a := construct (window_options 4 (int 0)) in
  getFrequencyData (config a) (state a) (Some 0)
    = [Number (int 0); Number (int 0); Number (int 0); Number (int 0)] ∧
  spec_getFrequencyData (config a) (state a) (Some 0) = [] ∧
  getFrequencyData (config a) (state a) (Some 0)
    ≠ spec_getFrequencyData (config a) (state a) (Some 0).
Proof.
  intros a.
  assert (getFrequencyData (config a) (state a) (Some 0)
    = [Number (int 0); Number (int 0); Number (int 0); Number (int 0)]) as Hcode
    by reflexivity.
  assert (spec_getFrequencyData (config a) (state a) (Some 0) = []) as Hspec
    by reflexivity.
  split; [done |]. split; [done |].
  rewrite Hcode, Hspec. discriminate.
Qed.

(** * Further properties of the code *)

Section Coverage.
Context {num fmt chunk : Type}.
Context {number : JSNumber num} {collab : Collaborators num fmt chunk}.
Implicit Types (self : Config num fmt) (st : State num) (c : chunk).
Implicit Types (cs : list chunk) (arr : list (jsval num)).

(** ** What one capture call keeps *)

Lemma capture_fdata_length self st c :
  length (_fdata (_capture self st c).1) = length (_fdata st).
Proof.
  destruct (decide (fftSize self ≤ _fftCount st + length (channelData_of self c)))
    as [Hge | Hlt].
  - destruct (capture_triggered self st c Hge) as (_ & _ & ->).
    apply smoothing_loop_length.
  - destruct (capture_not_triggered self st c) as (_ & _ & ->); [lia | done].
Qed.

Lemma capture_fftCount_lt self st c :
  0 < fftSize self → _fftCount (_capture self st c).1 < fftSize self.
Proof.
  intros Hpos.
  destruct (decide (fftSize self ≤ _fftCount st + length (channelData_of self c)))
    as [Hge | Hlt].
  - destruct (capture_triggered self st c Hge) as (_ & -> & _). done.
  - destruct (capture_not_triggered self st c) as (_ & -> & _); lia.
Qed.

Lemma capture_one_completion self st c :
  length (completions (_capture self st c).2) = 1 ∧
  (ntruthy (throttle self) = false →
   completions (_capture self st c).2 = [Synchronous]).
Proof.
  unfold _capture. case_decide; destruct (ntruthy (throttle self)); simpl;
    try destruct (ngt _ _); simpl; split; done.
Qed.

Lemma completions_app (ev1 ev2 : list (event num chunk)) :
  completions (ev1 ++ ev2) = completions ev1 ++ completions ev2.
Proof. apply omap_app. Qed.

Lemma run_fftCount_lt self st cs :
  0 < fftSize self → _fftCount st < fftSize self →
  _fftCount (run self st cs).1 < fftSize self.
Proof.
  intros Hpos. revert st. induction cs as [| c cs IH]; intros st Hst; [done |].
  rewrite run_cons. simpl. apply IH. by apply capture_fftCount_lt.
Qed.

Lemma run_fdata_length self st cs :
  length (_fdata (run self st cs).1) = length (_fdata st).
Proof.
  revert st. induction cs as [| c cs IH]; intros st; [done |].
  rewrite run_cons. simpl. by rewrite IH, capture_fdata_length.
Qed.

(** ** Sequences of capture calls *)

(** X1.  With a positive [bufferSize], from a state whose buffer is within
    [bufferSize], any sequence of capture calls leaves in the buffer the
    last [bufferSize] samples of the old buffer followed by everything
    decoded since, whatever the chunking; its length is the total, capped
    at [bufferSize]. *)
Theorem buffer_keeps_last_samples self st cs :
  0 < bufferSize self →
  length (_data st) ≤ bufferSize self →
  let data := _data (run self st cs).1 in
  data = last_samples (bufferSize self) (_data st ++ decoded self cs) ∧
  length data =
    (length (_data st) + length (decoded self cs)) `min` bufferSize self.
Proof.
  intros Hpos Hlen data.
  assert (data = last_samples (bufferSize self) (_data st ++ decoded self cs))
    as Hdata.
  { subst data. apply run_data; [done |]. by rewrite last_samples_all. }
  split; [done |].
  rewrite Hdata, last_samples_length, length_app. lia.
Qed.

(** X2.  No capture call resizes the spectrum: after any sequence of capture
    calls it has the length it had, which on a constructed analyser is
    [fftSize]. *)
Theorem spectrum_length_kept (o : Options) self st cs :
  length (_fdata (run self st cs).1) = length (_fdata st) ∧
  length (_fdata (run (config (Analyser o)) (state (Analyser o)) cs).1)
    = fftSize (config (Analyser o)).
Proof.
  split; [apply run_fdata_length |].
  rewrite run_fdata_length. apply length_replicate.
Qed.

(** X3.  With a positive [fftSize] the count of samples since the last
    transform stays below [fftSize]; a capture call runs at most one
    transform however many samples its chunk holds, and every transform
    uses up at least [fftSize] counted samples: the transforms run, times
    [fftSize], plus the count left, never exceed the count at the start
    plus the samples decoded. *)
Theorem transforms_bounded self st cs :
  0 < fftSize self →
  _fftCount st < fftSize self →
  let r := run self st cs in
  _fftCount r.1 < fftSize self ∧
  length (fft_calls r.2) ≤ length cs ∧
  length (fft_calls r.2) * fftSize self + _fftCount r.1
    ≤ _fftCount st + length (decoded self cs).
Proof.
  intros Hpos. revert st. induction cs as [| c cs IH]; intros st Hst r.
  { subst r. simpl. lia. }
  subst r. rewrite run_cons. cbn [fst snd].
  rewrite decoded_cons, length_app, fft_calls_app, length_app.
  destruct (IH (_capture self st c).1) as (IHlt & IHcalls & IHsum);
    [by apply capture_fftCount_lt |].
  destruct (decide (fftSize self ≤ _fftCount st + length (channelData_of self c)))
    as [Hge | Hlt].
  - destruct (capture_triggered self st c Hge) as (Hcalls & Hcount & _).
    rewrite Hcalls. rewrite Hcount in IHsum. simpl. lia.
  - destruct (capture_not_triggered self st c) as (Hcalls & Hcount & _); [lia |].
    rewrite Hcalls. rewrite Hcount in IHsum. simpl. lia.
Qed.

(** X4.  Every capture call that runs to its end signals its completion
    exactly once, by [cb()] or by [setTimeout(cb)] and never by both: a
    sequence of such calls signals as many completions as it has chunks.
    With a falsy [throttle] all of them are synchronous. *)
Theorem one_completion_per_call self st cs :
  all_return self st cs →
  length (completions (run self st cs).2) = length cs ∧
  (ntruthy (throttle self) = false →
   completions (run self st cs).2 = replicate (length cs) Synchronous).
Proof.
  revert st. induction cs as [| c cs IH]; intros st Hreturn; [done |].
  destruct Hreturn as [_ Hrest].
  rewrite run_cons. simpl. rewrite completions_app, length_app.
  destruct (capture_one_completion self st c) as [Hone Hsync].
  destruct (IH (_capture self st c).1 Hrest) as [IHlen IHsync].
  split; [lia |].
  intros Hoff. by rewrite Hsync, IHsync.
Qed.

(** X5.  A sequence of chunks handed to [_transform] is pushed on chunk by
    chunk, in the order of arrival, nothing dropped, repeated or changed;
    the analysis state is the one the captures alone give, and every chunk
    gets its completion. *)
Theorem transform_all_passes_through self st cs :
  pushed (transform_all self st cs).2 = cs ∧
  (transform_all self st cs).1 = (run self st cs).1 ∧
  completions (transform_all self st cs).2 = completions (run self st cs).2.
Proof.
  revert st. induction cs as [| c cs IH]; intros st; [done |].
  rewrite run_cons. cbn [transform_all]. unfold _transform.
  assert (pushed (_capture self st c).2 = []) as Hnone.
  { unfold _capture. case_decide; destruct (_ && _); done. }
  destruct (_capture self st c) as [st1 ev1]. cbn [fst snd] in *.
  destruct (IH st1) as (IHpushed & IHstate & IHdone).
  destruct (transform_all self st1 cs) as [st2 ev2]. cbn [fst snd] in *.
  unfold pushed in *. rewrite !completions_app.
  change (EPush c :: ev1) with ([EPush c] ++ ev1).
  rewrite !omap_app, Hnone, IHpushed, completions_app, IHdone. done.
Qed.

(** A buffer that a capture wrote, or that is still empty, is left as it is
    by the truncation. *)
Lemma run_data_stable self st cs :
  slice_neg (bufferSize self) (_data st) = _data st →
  slice_neg (bufferSize self) (_data (run self st cs).1) = _data (run self st cs).1.
Proof.
  revert st. induction cs as [| c cs IH]; intros st Hst; [done |].
  rewrite run_cons. simpl. apply IH.
  rewrite capture_data. apply slice_neg_idemp.
Qed.

(** X6.  A chunk that decodes to no sample, captured by an analyser with a
    positive [fftSize] at any point of its life, runs no transform and
    leaves the buffer, the spectrum and the count of samples since the last
    transform as they are; the call still signals its completion once. *)
Theorem capture_of_empty_chunk (o : Options) cs c :
  let self := config (Analyser o) in
  let st := (run self (state (Analyser o)) cs).1 in
  0 < fftSize self →
  channelData_of self c = [] →
  _data (_capture self st c).1 = _data st ∧
  _fdata (_capture self st c).1 = _fdata st ∧
  _fftCount (_capture self st c).1 = _fftCount st ∧
  fft_calls (_capture self st c).2 = [] ∧
  length (completions (_capture self st c).2) = 1.
Proof.
  intros self st Hpos Hempty.
  assert (_fftCount st < fftSize self) as Hcount
    by (by apply run_fftCount_lt).
  assert (slice_neg (bufferSize self) (_data st) = _data st) as Hstable.
  { apply run_data_stable. by destruct (bufferSize self). }
  clearbody st. clearbody self.
  destruct (capture_not_triggered self st c) as (Hcalls & Hsame & Hfdata).
  { rewrite Hempty. simpl. lia. }
  rewrite capture_data, Hempty, app_nil_r, Hstable.
  rewrite Hempty in Hsame. simpl in Hsame.
  split; [done |]. split; [done |]. split; [lia |]. split; [done |].
  apply capture_one_completion.
Qed.

(** While the buffer holds the end of the history and the count does not
    exceed the history, every transform gets a whole window. *)
Lemma run_windows self cs st (history : list num) :
  0 < fftSize self →
  fftSize self ≤ bufferSize self →
  _data st = last_samples (bufferSize self) history →
  _fftCount st ≤ length history →
  Forall (λ call : list num * list num,
            length call.1 = fftSize self ∧
            call.2 = replicate (fftSize self) (of_nat 0) ∧
            ∃ before after, history ++ decoded self cs = before ++ call.1 ++ after)
         (fft_calls (run self st cs).2).
Proof.
  intros Hpos Hbuf. revert st history.
  induction cs as [| c cs IH]; intros st history Hdata Hcount.
  { simpl. constructor. }
  rewrite run_cons. cbn [fst snd]. rewrite fft_calls_app, decoded_cons.
  assert (_data (_capture self st c).1 =
          last_samples (bufferSize self) (history ++ channelData_of self c))
    as Hdata1.
  { rewrite capture_data, slice_neg_pos, Hdata by lia. apply last_samples_app. }
  apply Forall_app. split.
  - destruct (decide (fftSize self ≤ _fftCount st + length (channelData_of self c)))
      as [Hge | Hlt].
    + destruct (capture_triggered self st c Hge) as (-> & _ & _).
      constructor; [| constructor]. cbn [fst snd].
      rewrite slice_neg_pos, Hdata1 by done.
      assert (last_samples (fftSize self)
                (last_samples (bufferSize self) (history ++ channelData_of self c))
              = last_samples (fftSize self) (history ++ channelData_of self c))
        as ->.
      { unfold last_samples. rewrite length_drop, drop_drop. f_equal. lia. }
      split; [| split; [done |]].
      * rewrite last_samples_length, length_app. lia.
      * exists (take (length (history ++ channelData_of self c) - fftSize self)
                  (history ++ channelData_of self c)), (decoded self cs).
        unfold last_samples.
        by rewrite (app_assoc (take _ _)), take_drop, <- app_assoc.
    + destruct (capture_not_triggered self st c) as (-> & _ & _); [lia |].
      constructor.
  - rewrite app_assoc. apply IH; [done |].
    rewrite length_app.
    destruct (decide (fftSize self ≤ _fftCount st + length (channelData_of self c)))
      as [Hge | Hlt].
    + destruct (capture_triggered self st c Hge) as (_ & -> & _). lia.
    + destruct (capture_not_triggered self st c) as (_ & -> & _); lia.
Qed.

(** X7.  Every transform a constructed analyser runs, when [bufferSize] is
    at least a positive [fftSize], gets a whole window: exactly [fftSize]
    consecutive samples of the decoded stream as the real input, and
    [fftSize] zeros as the imaginary input. *)
Theorem transforms_get_whole_windows (o : Options) cs :
  let self := config (Analyser o) in
  0 < fftSize self →
  fftSize self ≤ bufferSize self →
  Forall (λ call : list num * list num,
            length call.1 = fftSize self ∧
            call.2 = replicate (fftSize self) (of_nat 0) ∧
            ∃ before after, decoded self cs = before ++ call.1 ++ after)
         (fft_calls (run self (state (Analyser o)) cs).2).
Proof.
  intros self Hpos Hbuf.
  apply (run_windows self cs (state (Analyser o)) []); done.
Qed.

(** ** Transforms and NaN *)

(** X9.  A bin of the spectrum that holds NaN holds NaN after every later
    capture call, transform or not: the smoothing keeps [k * NaN + x],
    which is NaN. *)
Theorem nan_bin_stays self st cs i :
  (∀ k x, fround (nadd (nmul k nundef) x) = nundef) →
  _fdata st !! i = Some nundef →
  _fdata (run self st cs).1 !! i = Some nundef.
Proof.
  intros Hnan. revert st. induction cs as [| c cs IH]; intros st Hbin; [done |].
  rewrite run_cons. simpl. apply IH.
  destruct (decide (fftSize self ≤ _fftCount st + length (channelData_of self c)))
    as [Hge | Hlt].
  - destruct (capture_triggered self st c Hge) as (_ & _ & ->).
    rewrite smoothing_loop_lookup, Hbin. case_decide; [| done].
    simpl. unfold smooth. by rewrite Hnan.
  - by destruct (capture_not_triggered self st c) as (_ & _ & ->); [lia |].
Qed.

(** ** The accessors *)

Lemma last_samples_twice {A : Type} (n b : nat) (l : list A) :
  last_samples n (last_samples b l) = last_samples (n `min` b) l.
Proof.
  unfold last_samples. rewrite length_drop, drop_drop. f_equal. lia.
Qed.

Lemma getTimeData_last self st size :
  0 < fftSize self →
  getTimeData self st size =
    last_samples (or_default size (fftSize self)) (_data st).
Proof.
  intros Hpos. unfold getTimeData.
  assert (0 < or_default size (fftSize self))
    by (destruct size as [[|]|]; simpl; lia).
  destruct (_data st) as [| x data] eqn:Hdata.
  { by destruct (or_default _ _). }
  rewrite slice_neg_pos by (simpl; lia).
  unfold last_samples. f_equal. lia.
Qed.

(** X10.  When [frequencyBinCount] exceeds the length of the spectrum, as
    with an [fftSize] option below 512 and no [frequencyBinCount] option,
    [getFloatFrequencyData] still stores [frequencyBinCount] elements if
    the destination has room: from the length of the spectrum on it stores
    what the destination's element type makes of [undefined] ([undefined]
    itself in an [Array], NaN in a [Float32Array]), and
    [getByteFrequencyData] what it makes of the conversion of [undefined],
    over what the destination held. *)
Theorem frequency_data_past_spectrum (store : jsval num → jsval num)
    (o : Options) cs arr j :
  let self := config (Analyser o) in
  let st := (run self (state (Analyser o)) cs).1 in
  fftSize self ≤ j →
  j < frequencyBinCount self `min` length arr →
  ∃ arr1 arr2,
    getFloatFrequencyData_into store self st (Some arr) = Some arr1 ∧
    getByteFrequencyData_into store self st (Some arr) = Some arr2 ∧
    arr1 !! j = Some (store Undefined) ∧
    arr2 !! j = Some (store (convertSample_uint8 Undefined)).
Proof.
  intros self st Hlow Hhigh.
  assert (length (_fdata st) = fftSize self) as Hlen.
  { subst st. rewrite run_fdata_length. apply length_replicate. }
  clearbody st. clearbody self.
  eexists _, _. split; [done |]. split; [done |].
  rewrite !frequency_loop_lookup. case_decide; [| lia].
  destruct (lookup_lt_is_Some_2 arr j) as [x Hx]; [lia |].
  rewrite Hx, lookup_ge_None_2 by lia. done.
Qed.

(** X11.  The four accessors that fill a destination are idempotent: filling
    what an accessor has filled, with the state unchanged, gives the same
    array again.  What they store depends on the state and the index only,
    not on what the destination held. *)
Theorem accessors_idempotent self st (dest : option (list (jsval num))) :
  getFloatFrequencyData self st (getFloatFrequencyData self st dest)
    = getFloatFrequencyData self st dest ∧
  getByteFrequencyData self st (getByteFrequencyData self st dest)
    = getByteFrequencyData self st dest ∧
  getFloatTimeDomainData self st (getFloatTimeDomainData self st dest)
    = getFloatTimeDomainData self st dest ∧
  getByteTimeDomainData self st (getByteTimeDomainData self st dest)
    = getByteTimeDomainData self st dest.
Proof.
  destruct dest as [arr |]; [| done].
  unfold getFloatFrequencyData, getByteFrequencyData,
    getFloatTimeDomainData, getByteTimeDomainData.
  rewrite !frequency_loop_length, !time_loop_length.
  repeat split; f_equal; apply list_eq; intros j;
    rewrite ?frequency_loop_lookup, ?time_loop_lookup;
    case_decide; try done;
    by destruct (arr !! j).
Qed.

(** X12.  With a positive [fftSize] and a destination of at least [fftSize]
    elements, the first [fftSize] elements [getFloatTimeDomainData] stores
    are the samples [getTimeData()] returns, newest last, preceded by as
    many [undefined] as the buffer lacks samples for a whole window, each
    as the destination's element type keeps it (a [Float32Array] keeps NaN
    for [undefined]). *)
Theorem time_domain_data_padded (store : jsval num → jsval num) self st arr :
  0 < fftSize self →
  fftSize self ≤ length arr →
  ∃ arr1,
    getFloatTimeDomainData_into store self st (Some arr) = Some arr1 ∧
    take (fftSize self) arr1 =
      replicate (fftSize self - length (_data st)) (store Undefined)
      ++ (store ∘ Number <$> getTimeData self st None).
Proof.
  intros Hpos Hdest. eexists. split; [done |].
  rewrite getTimeData_last by done. simpl.
  replace (length arr `min` fftSize self) with (fftSize self) by lia.
  apply list_eq. intros j.
  destruct (decide (j < fftSize self)) as [Hj | Hj].
  - rewrite lookup_take_lt, time_loop_lookup by done.
    case_decide; [| lia].
    destruct (lookup_lt_is_Some_2 arr j) as [x Hx]; [lia |].
    rewrite Hx, Nat.sub_0_r. simpl.
    destruct (decide (j < fftSize self - length (_data st))) as [Hpad | Hin].
    + rewrite lookup_app_l by (rewrite length_replicate; lia).
      rewrite lookup_replicate_2, array_get_neg by lia. done.
    + rewrite lookup_app_r by (rewrite length_replicate; lia).
      rewrite length_replicate, list_lookup_fmap.
      unfold last_samples. rewrite lookup_drop.
      replace (Z.of_nat (length (_data st)) - Z.of_nat (fftSize self)
               + Z.of_nat j)%Z
        with (Z.of_nat (length (_data st) + j - fftSize self)) by lia.
      rewrite array_get_nat.
      replace (length (_data st) - fftSize self
               + (j - (fftSize self - length (_data st))))
        with (length (_data st) + j - fftSize self) by lia.
      destruct (lookup_lt_is_Some_2 (_data st)
                  (length (_data st) + j - fftSize self)) as [y Hy]; [lia |].
      by rewrite Hy.
  - rewrite lookup_take_ge by lia.
    rewrite lookup_ge_None_2; [done |].
    rewrite length_app, length_replicate, length_fmap, last_samples_length. lia.
Qed.

(** X13.  What was captured is read back: on a constructed analyser with
    positive [fftSize] and [bufferSize], after any sequence of capture
    calls [getTimeData(size)] returns the last
    [min(size || fftSize, bufferSize)] of all the samples decoded, fewer
    when fewer were decoded, in arrival order and whatever the chunking. *)
Theorem captured_samples_read_back (o : Options) cs size :
  let self := config (Analyser o) in
  let st := (run self (state (Analyser o)) cs).1 in
  0 < fftSize self →
  0 < bufferSize self →
  getTimeData self st size =
    last_samples (or_default size (fftSize self) `min` bufferSize self)
                 (decoded self cs).
Proof.
  intros self st Hpos Hbuf.
  rewrite getTimeData_last by done. subst st.
  rewrite (run_data self cs _ []) by done.
  apply last_samples_twice.
Qed.

(** X14.  The two spectrum accessors agree: with a positive
    [frequencyBinCount] that neither the destination nor the spectrum falls
    short of, the first [frequencyBinCount] elements
    [getFloatFrequencyData] stores are the array
    [getFrequencyData(frequencyBinCount)] returns. *)
Theorem frequency_accessors_agree self st arr :
  0 < frequencyBinCount self →
  frequencyBinCount self ≤ length arr →
  frequencyBinCount self ≤ length (_fdata st) →
  ∃ arr1,
    getFloatFrequencyData self st (Some arr) = Some arr1 ∧
    take (frequencyBinCount self) arr1 =
      getFrequencyData self st (Some (frequencyBinCount self)).
Proof.
  intros Hpos Hdest Hspec. eexists. split; [done |].
  unfold getFrequencyData.
  replace (or_default (Some (frequencyBinCount self)) (fftSize self))
    with (frequencyBinCount self)
    by (destruct (frequencyBinCount self); [lia | done]).
  rewrite push_loop_spec. simpl.
  replace (frequencyBinCount self `min` length arr)
    with (frequencyBinCount self) by lia.
  replace (frequencyBinCount self `min` length (_fdata st))
    with (frequencyBinCount self) by lia.
  apply list_eq. intros j.
  destruct (decide (j < frequencyBinCount self)) as [Hj | Hj].
  - rewrite lookup_take_lt, frequency_loop_lookup by done.
    case_decide; [| lia].
    destruct (lookup_lt_is_Some_2 arr j) as [x Hx]; [lia |].
    rewrite Hx, list_lookup_fmap, lookup_seq_lt by done. done.
  - rewrite lookup_take_ge by lia.
    rewrite list_lookup_fmap, lookup_seq_ge by lia. done.
Qed.

End Coverage.

(** ** The further properties on concrete inputs *)

(** X1 at work: with [bufferSize] 2, the chunks [1, 2] and [3] leave
    [2, 3]. *)
Lemma buffer_keeps_last_samples_witness :
  let a := construct (window_buffer_options 4 2) in
  _data (run (collab := mono_float dft4) (config a) (state a)
           [[int 1; int 2]; [int 3]]).1
    = [int 2; int 3].
Proof.
  intros a.
  destruct (buffer_keeps_last_samples (collab := mono_float dft4)
              (config a) (state a) [[int 1; int 2]; [int 3]]) as [Hdata _];
    [vm_compute; lia | vm_compute; lia |].
  etrans; [exact Hdata |]. reflexivity.
Defined.

(** X3 at work: with [fftSize] 4, a chunk of nine samples and one of a
    single sample run one transform and leave the count 1. *)
Lemma transforms_bounded_witness :
  let a := construct (window_options 4 (int 0)) in
  let r := run (collab := mono_float dft4) (config a) (state a)
             [replicate 9 (int 0); [int 0]] in
  _fftCount r.1 < 4 ∧ length (fft_calls r.2) * 4 + _fftCount r.1 ≤ 0 + 10.
Proof.
  intros a r.
  destruct (transforms_bounded (collab := mono_float dft4)
              (config a) (state a) [replicate 9 (int 0); [int 0]])
    as (Hlt & _ & Hsum); [vm_compute; lia | vm_compute; lia |].
  split; [exact Hlt | exact Hsum].
Defined.

(** X6 at work: after two samples, an empty chunk leaves the count at 2. *)
Lemma capture_of_empty_chunk_witness :
  let a := construct (window_options 4 (int 0)) in
  let st := (run (collab := mono_float dft4) (config a) (state a)
               [[int 1; int 2]]).1 in
  _fftCount (_capture (collab := mono_float dft4) (config a) st []).1
    = _fftCount st.
Proof.
  intros a st.
  destruct (capture_of_empty_chunk (collab := mono_float dft4)
              (window_options 4 (int 0)) [[int 1; int 2]] [])
    as (_ & _ & Hcount & _); [vm_compute; lia | reflexivity |].
  exact Hcount.
Defined.

(** X7 at work: with [fftSize] 4 and [bufferSize] 8, the transform a chunk
    of five samples runs gets four of them. *)
Lemma transforms_get_whole_windows_witness :
  let a := construct (window_buffer_options 4 8) in
  Forall (λ call : list xnum * list xnum, length call.1 = 4)
    (fft_calls (run (collab := mono_float dft4) (config a) (state a)
                  [[int 1; int 2; int 3; int 4; int 5]]).2).
Proof.
  intros a.
  eapply Forall_impl.
  - apply (transforms_get_whole_windows (collab := mono_float dft4)
             (window_buffer_options 4 8) [[int 1; int 2; int 3; int 4; int 5]]);
      vm_compute; lia.
  - intros call (Hlen & _). exact Hlen.
Defined.

(** X9 at work: a spectrum whose bin 0 is NaN keeps it through a capture
    that runs a transform. *)
Lemma nan_bin_stays_witness :
  let a := construct (window_options 2 (int 0)) in
  let st := {| _data := []; _fdata := [NaN; int 0];
               _timeoutCount := int 0; _fftCount := 0 |} in
  _fdata (run (collab := mono_float dft4) (config a) st [[int 1; int 2]]).1 !! 0
    = Some NaN.
Proof.
  intros a st. change (Some NaN) with (Some (@nundef xnum _)).
  apply (nan_bin_stays (collab := mono_float dft4) (config a) st
           [[int 1; int 2]] 0).
  - intros [] []; reflexivity.
  - reflexivity.
Defined.

(** X10 at work: with the options [{fftSize: 2}], [frequencyBinCount] is
    512 and a destination of four numbers that keeps NaN for [undefined]
    gets NaN at index 2. *)
Lemma frequency_data_past_spectrum_witness :
  let a := construct (fftSize_options 2) in
  let float32 (v : jsval xnum) :=
    match v with Undefined => Number NaN | Number x => Number x end in
  ∃ arr1,
    getFloatFrequencyData_into float32 (config a) (state a)
      (Some [Number (int 1); Number (int 1); Number (int 1); Number (int 1)])
      = Some arr1 ∧
    arr1 !! 2 = Some (Number NaN).
Proof.
  intros a float32.
  destruct (frequency_data_past_spectrum (collab := mono_float dft4) float32
              (fftSize_options 2) []
              [Number (int 1); Number (int 1); Number (int 1); Number (int 1)] 2)
    as (arr1 & _ & Hfloat & _ & Hundef & _); [vm_compute; lia | vm_compute; lia |].
  exists arr1. split; [exact Hfloat | exact Hundef].
Defined.

(** X12 at work: with [fftSize] 4 and the buffer [1, 2], a destination of
    four elements that keeps NaN for [undefined] gets [NaN, NaN, 1, 2]. *)
Lemma time_domain_data_padded_witness :
  let a := construct (window_options 4 (int 0)) in
  let st := (run (collab := mono_float dft4) (config a) (state a)
               [[int 1; int 2]]).1 in
  let float32 (v : jsval xnum) :=
    match v with Undefined => Number NaN | Number x => Number x end in
  ∃ arr1,
    getFloatTimeDomainData_into float32 (config a) st
      (Some [Undefined; Undefined; Undefined; Undefined]) = Some arr1 ∧
    take 4 arr1 = [Number NaN; Number NaN; Number (int 1); Number (int 2)].
Proof.
  intros a st float32.
  destruct (time_domain_data_padded float32 (config a) st
              [Undefined; Undefined; Undefined; Undefined])
    as (arr1 & Hfloat & Hfirst); [vm_compute; lia | vm_compute; lia |].
  exists arr1. split; [exact Hfloat |].
  etrans; [exact Hfirst |]. reflexivity.
Defined.

(** X4 at work: with [fftSize] 4 and [bufferSize] 8 two chunks of two
    samples run to their ends and signal two completions. *)
Lemma one_completion_per_call_witness :
  let a := construct (window_buffer_options 4 8) in
  length (completions
            (run (collab := mono_float dft4) (config a) (state a)
               [[int 1; int 2]; [int 3; int 4]]).2) = 2.
Proof.
  intros a.
  apply (one_completion_per_call (collab := mono_float dft4) (config a) (state a)
           [[int 1; int 2]; [int 3; int 4]]).
  cbn [all_return]. repeat split;
    try (intros H; first [reflexivity | exfalso; vm_compute in H; lia]).
Defined.

(** X13 at work: with [fftSize] 2 and [bufferSize] 3, after the chunks
    [1, 2] and [3, 4], [getTimeData()] returns [3, 4]. *)
Lemma captured_samples_read_back_witness :
  let a := construct (window_buffer_options 2 3) in
  getTimeData (config a)
    (run (collab := mono_float dft4) (config a) (state a)
       [[int 1; int 2]; [int 3; int 4]]).1 None
    = [int 3; int 4].
Proof.
  intros a.
  etrans.
  - apply (captured_samples_read_back (collab := mono_float dft4)
             (window_buffer_options 2 3) [[int 1; int 2]; [int 3; int 4]] None);
      vm_compute; lia.
  - reflexivity.
Defined.

(** X14 at work: on a new analyser with the prototype's configuration and a
    destination of 512 elements. *)
Lemma frequency_accessors_agree_witness :
  let a := construct no_options in
  ∃ arr1,
    getFloatFrequencyData (config a) (state a) (Some (replicate 512 Undefined))
      = Some arr1 ∧
    take 512 arr1 = getFrequencyData (config a) (state a) (Some 512).
Proof.
  intros a.
  apply (frequency_accessors_agree (config a) (state a)
           (replicate 512 Undefined)); vm_compute; lia.
Defined.
